(** * Go memory-model playground: a shallow embedding and its properties

    The Go program of [golang-playground] (the main program, the escape
    analysis examples and the memory tracking) is embedded as functions of a
    state-and-error monad
    over an explicit world: a store of addressable objects, the two package
    level variables, the runtime's memory statistics (an environment input)
    and the trace of everything the program does, in order. *)

From Stdlib Require Import ZArith String Ascii List Bool Lia.
From stdpp Require Import base option list gmap strings.
Import ListNotations.

Local Open Scope string_scope.
Local Open Scope list_scope.
Local Open Scope Z_scope.

(** ** Machine integers *)

(** Go's [int] on a 64-bit target: two's complement, silent wrap-around. *)
Definition wrap_int (z : Z) : Z := (z + 2 ^ 63) mod 2 ^ 64 - 2 ^ 63.
Definition int_add (a b : Z) : Z := wrap_int (a + b).
Definition int_mul (a b : Z) : Z := wrap_int (a * b).

(** Go's [uint64]: arithmetic modulo 2^64. *)
Definition uint64_max : Z := 2 ^ 64 - 1.
Definition is_uint64 (z : Z) : Prop := 0 <= z <= uint64_max.
Definition uint64_sub (a b : Z) : Z := (a - b) mod 2 ^ 64.

(** The newline character of Go's ["\n"]. *)
Definition nl : string := String (ascii_of_nat 10) EmptyString.

(** ** Data model *)

Definition addr := nat.

(** [type User struct { Name string; Age int }] *)
Record User := mkUser { Name : string; Age : Z }.

(** A slice header: pointer to the backing array, and the window on it. *)
Record slice := mkSlice { s_arr : addr; s_off : Z; s_len : Z; s_cap : Z }.

(** [type LargeObject struct { ID int; Data []byte }] *)
Record LargeObject := mkLargeObject { ID : Z; Data : slice }.

(** What a variable or an array cell holds. *)
Inductive Val :=
| VInt (z : Z)
| VByte (z : Z)
| VPtr (p : option addr)
| VIface (dyn : option (string * addr)).

(** A backing array of [a_len] cells; a cell never written holds the zero
    value [a_zero] of the element type, as after Go's [make]. *)
Record Arr := mkArr { a_len : Z; a_zero : Val; a_cells : gmap Z Val }.

(** What lives at an address. *)
Inductive Obj :=
| OVar (v : Val)
| OUser (u : User)
| OLarge (l : LargeObject)
| OArr (a : Arr).

Module runtime.

(** The four counters of [runtime.MemStats] the program reads (uint64). *)
Record MemStats := mkMemStats {
  TotalAlloc : Z; HeapAlloc : Z; HeapObjects : Z; Mallocs : Z }.

End runtime.

(** The tracking helper: [type MemStats struct { Before, After runtime.MemStats }] *)
Record MemStats := mkStats { Before : runtime.MemStats; After : runtime.MemStats }.

(** The package-level variables of escape_analysis.go. *)
Inductive GlobalVar := globalInterface | globalPtr.

(** An argument handed to [fmt]. *)
Inductive PArg :=
| PStr (s : string)
| PInt (z : Z)
| PUint (z : Z)
| PPtr (p : option addr)
| PUser (u : User)
| PUserRef (a : addr) (u : User)
| PInts (l : list Val).

(** Everything the program does that is visible from outside a function. *)
Inductive Event :=
| EvCall (f : string)
| EvRet (f : string)
| EvInvoke
| EvClosure (captures : list addr)
| EvIter (i : Z)
| EvAlloc (a : addr) (o : Obj)
| EvStore (a : addr) (old new : Obj)
| EvGlobalStore (g : GlobalVar) (v : Val)
| EvGC
| EvReadMemStats (m : runtime.MemStats)
| EvPrintln (args : list PArg)
| EvPrintf (fmt : string) (args : list PArg).

Record World := mkWorld {
  heap : list Obj;
  g_interface : Val;
  g_ptr : Val;
  trace : list Event;
  rt_stats : nat -> runtime.MemStats;
  rt_reads : nat }.

(** The world [main] starts in: nothing allocated, both globals nil; the
    statistics the runtime will report are the environment's choice. *)
Definition init_world (stats : nat -> runtime.MemStats) : World :=
  mkWorld [] (VIface None) (VPtr None) [] stats 0.

(** ** The monad: state, panics, and loop fuel *)

(** How a run ends. A panic keeps the world it happened in: what was
    printed, read or stored before it stays done. *)
Inductive Result (A : Type) :=
| Ok (a : A)
| Panic (msg : string) (w : World)
| OutOfFuel.
Arguments Ok {A} a.
Arguments Panic {A} msg w.
Arguments OutOfFuel {A}.

Definition M (A : Type) : Type := World -> Result (A * World).

Definition ret {A} (a : A) : M A := fun w => Ok (a, w).

Definition bind {A B} (m : M A) (k : A -> M B) : M B :=
  fun w => match m w with
           | Ok (a, w') => k a w'
           | Panic msg w' => Panic msg w'
           | OutOfFuel => OutOfFuel
           end.

Definition panic {A} (msg : string) : M A := fun w => Panic msg w.

Notation "x <- m ;; k" := (bind m (fun x => k))
  (at level 100, m at next level, right associativity).
Notation "m ;; k" := (bind m (fun _ => k))
  (at level 100, right associativity).

Definition emit (e : Event) : M unit :=
  fun w => Ok (tt, mkWorld (heap w) (g_interface w) (g_ptr w)
                           (trace w ++ [e]) (rt_stats w) (rt_reads w)).

(** A named Go function: its body between a call and a return marker. *)
Definition call {A} (f : string) (body : M A) : M A :=
  emit (EvCall f) ;; r <- body ;; emit (EvRet f) ;; ret r.

(** Calling a function value, [fn()]. *)
Definition invoke {A} (fn : M A) : M A := emit EvInvoke ;; fn.

(** [for i := start; cond(i); i++ { body }], threading the locals the body
    assigns. Each test of the condition costs one unit of fuel. *)
Fixpoint for_loop {S} (fuel : nat) (cond : Z -> bool)
    (body : Z -> S -> M S) (i : Z) (s : S) : M S :=
  match fuel with
  | O => fun _ => OutOfFuel
  | Datatypes.S fuel' =>
      if cond i
      then emit (EvIter i) ;; s' <- body i s ;;
           for_loop fuel' cond body (int_add i 1) s'
      else ret s
  end.

(** ** The store *)

Definition alloc (o : Obj) : M addr :=
  fun w => let a := length (heap w) in
           Ok (a, mkWorld (heap w ++ [o]) (g_interface w) (g_ptr w)
                          (trace w ++ [EvAlloc a o]) (rt_stats w) (rt_reads w)).

Definition load (a : addr) : M Obj :=
  fun w => match heap w !! a with
           | Some o => Ok (o, w)
           | None => Panic "invalid memory address" w
           end.

Definition store (a : addr) (o : Obj) : M unit :=
  fun w => match heap w !! a with
           | Some old =>
               Ok (tt, mkWorld (<[a := o]> (heap w)) (g_interface w) (g_ptr w)
                               (trace w ++ [EvStore a old o])
                               (rt_stats w) (rt_reads w))
           | None => Panic "invalid memory address" w
           end.

(** Following a pointer: nil panics. *)
Definition deref (v : Val) : M addr :=
  match v with
  | VPtr (Some a) => ret a
  | _ => panic "nil pointer dereference"
  end.

Definition load_var (a : addr) : M Val :=
  o <- load a ;;
  match o with OVar v => ret v | _ => panic "not a variable" end.

Definition load_user (a : addr) : M User :=
  o <- load a ;;
  match o with OUser u => ret u | _ => panic "not a User" end.

Definition load_arr (a : addr) : M Arr :=
  o <- load a ;;
  match o with OArr x => ret x | _ => panic "not an array" end.

Definition set_global (g : GlobalVar) (v : Val) : M unit :=
  fun w => Ok (tt, match g with
                   | globalInterface =>
                       mkWorld (heap w) v (g_ptr w)
                               (trace w ++ [EvGlobalStore g v])
                               (rt_stats w) (rt_reads w)
                   | globalPtr =>
                       mkWorld (heap w) (g_interface w) v
                               (trace w ++ [EvGlobalStore g v])
                               (rt_stats w) (rt_reads w)
                   end).

(** ** Slices *)

Definition arr_get (x : Arr) (i : Z) : option Val :=
  if (0 <=? i) && (i <? a_len x)
  then Some (default (a_zero x) (a_cells x !! i))
  else None.

Definition arr_set (x : Arr) (i : Z) (v : Val) : option Arr :=
  if (0 <=? i) && (i <? a_len x)
  then Some (mkArr (a_len x) (a_zero x) (<[i := v]> (a_cells x)))
  else None.

Fixpoint arr_of_list_from (i : Z) (l : list Val) : gmap Z Val :=
  match l with
  | [] => ∅
  | v :: l' => <[i := v]> (arr_of_list_from (i + 1) l')
  end.

(** [make([]T, n)] *)
Definition make_slice (zero : Val) (n : Z) : M slice :=
  if n <? 0 then panic "makeslice: len out of range"
  else a <- alloc (OArr (mkArr n zero ∅)) ;; ret (mkSlice a 0 n n).

(** A composite literal [[]T{v0, v1, ...}] *)
Definition slice_lit (zero : Val) (l : list Val) : M slice :=
  let n := Z.of_nat (length l) in
  a <- alloc (OArr (mkArr n zero (arr_of_list_from 0 l))) ;;
  ret (mkSlice a 0 n n).

(** [s[lo:hi]]: the bounds are checked against the capacity. *)
Definition slice_expr (s : slice) (lo hi : Z) : M slice :=
  if (0 <=? lo) && (lo <=? hi) && (hi <=? s_cap s)
  then ret (mkSlice (s_arr s) (s_off s + lo) (hi - lo) (s_cap s - lo))
  else panic "slice bounds out of range".

(** [s[lo:]] *)
Definition slice_from (s : slice) (lo : Z) : M slice := slice_expr s lo (s_len s).

(** [s[i]] *)
Definition index_get (s : slice) (i : Z) : M Val :=
  if (0 <=? i) && (i <? s_len s)
  then x <- load_arr (s_arr s) ;;
       match arr_get x (s_off s + i) with
       | Some v => ret v
       | None => panic "index out of range"
       end
  else panic "index out of range".

(** [s[i] = v] *)
Definition index_set (s : slice) (i : Z) (v : Val) : M unit :=
  if (0 <=? i) && (i <? s_len s)
  then x <- load_arr (s_arr s) ;;
       match arr_set x (s_off s + i) v with
       | Some x' => store (s_arr s) (OArr x')
       | None => panic "index out of range"
       end
  else panic "index out of range".

(** The elements a slice shows, as [%v] walks them. *)
Fixpoint arr_window (x : Arr) (from : Z) (n : nat) : option (list Val) :=
  match n with
  | O => Some []
  | Datatypes.S n' =>
      match arr_get x from, arr_window x (from + 1) n' with
      | Some v, Some l => Some (v :: l)
      | _, _ => None
      end
  end.

Definition slice_elems (s : slice) : M (list Val) :=
  x <- load_arr (s_arr s) ;;
  match arr_window x (s_off s) (Z.to_nat (s_len s)) with
  | Some l => ret l
  | None => panic "index out of range"
  end.

(** ** fmt and runtime *)

Module fmt.

Definition Println (args : list PArg) : M unit := emit (EvPrintln args).

Definition Printf (format : string) (args : list PArg) : M unit :=
  emit (EvPrintf format args).

End fmt.

Module runtimeOps.

(** [runtime.GC()]: nothing the program can reach is reclaimed. *)
Definition GC : M unit := emit EvGC.

(** [runtime.ReadMemStats(&m)]: the next report of the runtime. *)
Definition ReadMemStats : M runtime.MemStats :=
  fun w => let m := rt_stats w (rt_reads w) in
           Ok (m, mkWorld (heap w) (g_interface w) (g_ptr w)
                          (trace w ++ [EvReadMemStats m])
                          (rt_stats w) (Datatypes.S (rt_reads w))).

End runtimeOps.

Definition as_int (v : Val) : M Z :=
  match v with VInt z => ret z | _ => panic "not an int" end.

(** A function literal; [captures] are the variables it closes over. *)
Definition func_lit {A} (captures : list addr) (body : M A) : M (M A) :=
  emit (EvClosure captures) ;; ret body.

(** How [%+v] shows a [*User]: the pointee, or nil. *)
Definition show_user_ptr (v : Val) : M PArg :=
  match v with
  | VPtr (Some a) => u <- load_user a ;; ret (PUserRef a u)
  | VPtr None => ret (PPtr None)
  | _ => panic "not a pointer"
  end.

Definition show_ptr (v : Val) : M PArg :=
  match v with
  | VPtr p => ret (PPtr p)
  | _ => panic "not a pointer"
  end.

(** ** Memory tracking *)

Definition TrackMemory (name : string) (fn : M unit) : M unit :=
  call "TrackMemory" (
    runtimeOps.GC ;;
    before <- runtimeOps.ReadMemStats ;;
    invoke fn ;;
    after <- runtimeOps.ReadMemStats ;;
    let m := mkStats before after in
    let allocDiff :=
      uint64_sub (runtime.TotalAlloc (After m)) (runtime.TotalAlloc (Before m)) in
    let heapAllocDiff :=
      uint64_sub (runtime.HeapAlloc (After m)) (runtime.HeapAlloc (Before m)) in
    let heapObjects :=
      uint64_sub (runtime.HeapObjects (After m)) (runtime.HeapObjects (Before m)) in
    fmt.Printf (nl +:+ "=== Memory Tracking: %s ===" +:+ nl) [PStr name] ;;
    fmt.Printf ("  Total allocated:     %d bytes" +:+ nl) [PUint allocDiff] ;;
    fmt.Printf ("  Heap allocated:      %d bytes" +:+ nl) [PUint heapAllocDiff] ;;
    fmt.Printf ("  Heap objects added:  %d" +:+ nl) [PUint heapObjects] ;;
    fmt.Printf ("  Mallocs:             %d" +:+ nl)
      [PUint (uint64_sub (runtime.Mallocs (After m)) (runtime.Mallocs (Before m)))]).

Definition stackOnlyAllocation : M unit :=
  call "stackOnlyAllocation" (
    let x := 42 in
    let y := int_add x 10 in
    let _ := y in
    ret tt).

Definition createLargeObject (id : Z) : M Val :=
  call "createLargeObject" (
    data <- make_slice (VByte 0) 1024 ;;
    a <- alloc (OLarge (mkLargeObject id data)) ;;
    ret (VPtr (Some a))).

Definition heapAllocationViaPointer (fuel : nat) : M unit :=
  call "heapAllocationViaPointer" (
    objects <- make_slice (VPtr None) 10 ;;
    for_loop fuel (fun i => i <? 10)
      (fun i _ => o <- createLargeObject i ;; index_set objects i o) 0 tt ;;
    let _ := objects in
    ret tt).

(** The function-local [type SmallStruct struct { A int; B int }]. *)
Module SmallStruct.

Record t := mk { A : Z; B : Z }.

End SmallStruct.

Definition stackStructAllocation (fuel : nat) : M unit :=
  call "stackStructAllocation" (
    sum <- for_loop fuel (fun i => i <? 100)
      (fun i sum =>
         let s := SmallStruct.mk i (int_mul i 2) in
         ret (int_add sum (int_add (SmallStruct.A s) (SmallStruct.B s))))
      0 0 ;;
    let _ := sum in
    ret tt).

Definition largeAllocation : M unit :=
  call "largeAllocation" (
    _ <- make_slice (VByte 0) (1024 * 1024) ;;
    ret tt).

Definition banner : string :=
  "============================================================".

Definition DemonstrateMemoryTracking (fuel : nat) : M unit :=
  call "DemonstrateMemoryTracking" (
    fmt.Println [PStr (nl +:+ banner)] ;;
    fmt.Println [PStr "MEMORY ALLOCATION TRACKING"] ;;
    fmt.Println [PStr banner] ;;
    f1 <- func_lit [] stackOnlyAllocation ;;
    TrackMemory "Stack Only (should be minimal)" f1 ;;
    f2 <- func_lit [] (stackStructAllocation fuel) ;;
    TrackMemory "Small Structs on Stack" f2 ;;
    f3 <- func_lit [] (heapAllocationViaPointer fuel) ;;
    TrackMemory "Heap Allocation (createLargeObject x10)" f3 ;;
    f4 <- func_lit [] largeAllocation ;;
    TrackMemory "Large Allocation (1MB slice)" f4 ;;
    fmt.Println [PStr (nl +:+ banner)]).

(** ** escape_analysis.go *)

Definition noEscape : M unit :=
  call "noEscape" (
    let x := 42 in
    let _ := x in
    ret tt).

Definition escapesViaReturn : M Val :=
  call "escapesViaReturn" (
    x <- alloc (OVar (VInt 42)) ;;
    ret (VPtr (Some x))).

Definition escapesViaInterface : M unit :=
  call "escapesViaInterface" (
    let x := 42 in
    boxed <- alloc (OVar (VInt x)) ;;
    set_global globalInterface (VIface (Some ("int", boxed)))).

Definition escapesViaSizeTooLarge : M unit :=
  call "escapesViaSizeTooLarge" (
    largeArray <- make_slice (VInt 0) 1000000 ;;
    let _ := largeArray in
    ret tt).

Definition noEscapeLocalPointer : M unit :=
  call "noEscapeLocalPointer" (
    x <- alloc (OVar (VInt 42)) ;;
    let ptr := VPtr (Some x) in
    a <- deref ptr ;;
    _ <- load_var a ;;
    ret tt).

Definition escapesViaGlobal : M unit :=
  call "escapesViaGlobal" (
    x <- alloc (OVar (VInt 42)) ;;
    set_global globalPtr (VPtr (Some x))).

Definition escapesViaClosure : M (M Z) :=
  call "escapesViaClosure" (
    x <- alloc (OVar (VInt 42)) ;;
    func_lit [x] (v <- load_var x ;; as_int v)).

Definition DemonstrateEscapeAnalysis : M unit :=
  call "DemonstrateEscapeAnalysis" (
    noEscape ;;
    ptr <- escapesViaReturn ;;
    a <- deref ptr ;;
    _ <- load_var a ;;
    escapesViaInterface ;;
    escapesViaSizeTooLarge ;;
    noEscapeLocalPointer ;;
    escapesViaGlobal ;;
    fn <- escapesViaClosure ;;
    _ <- invoke fn ;;
    ret tt).

(** ** The main program *)

Definition stackExample : M unit :=
  call "stackExample" (
    let x := 42 in
    fmt.Printf ("  Stack variable x = %d (allocated on stack)" +:+ nl) [PInt x]).

Definition createUser : M Val :=
  call "createUser" (
    u <- alloc (OUser (mkUser "Alice" 30)) ;;
    ret (VPtr (Some u))).

Definition heapExample : M unit :=
  call "heapExample" (
    user <- createUser ;;
    shown <- show_user_ptr user ;;
    fmt.Printf
      ("  Heap variable user = %+v (allocated on heap, GC will clean up)" +:+ nl)
      [shown]).

(** One line of the pointer table: the pointer held in the variable at
    [var], the address of that variable, and the pointee. *)
Definition print_pointer_row (format : string) (var : addr) : M unit :=
  p <- load_var var ;;
  shown <- show_ptr p ;;
  a <- deref p ;;
  u <- load_user a ;;
  fmt.Printf format [shown; PPtr (Some var); PUser u].

Definition pointerSharingExample : M unit :=
  call "pointerSharingExample" (
    bob <- alloc (OUser (mkUser "Bob" 25)) ;;
    user <- alloc (OVar (VPtr (Some bob))) ;;
    v1 <- load_var user ;;
    ptr1 <- alloc (OVar v1) ;;
    v2 <- load_var user ;;
    ptr2 <- alloc (OVar v2) ;;
    v3 <- load_var user ;;
    ptr3 <- alloc (OVar v3) ;;
    print_pointer_row ("  Original: %p (ptr at %p) -> %+v" +:+ nl) user ;;
    print_pointer_row ("  Ptr1:     %p (ptr at %p) -> %+v" +:+ nl) ptr1 ;;
    print_pointer_row ("  Ptr2:     %p (ptr at %p) -> %+v" +:+ nl) ptr2 ;;
    print_pointer_row ("  Ptr3:     %p (ptr at %p) -> %+v" +:+ nl) ptr3 ;;
    fmt.Println [PStr "  All pointers share the same heap memory!"] ;;
    fmt.Println [PStr "  GC will clean up when all references are gone"] ;;
    p1 <- load_var ptr1 ;;
    a1 <- deref p1 ;;
    u1 <- load_user a1 ;;
    store a1 (OUser (mkUser (Name u1) 26)) ;;
    p <- load_var user ;;
    a <- deref p ;;
    u <- load_user a ;;
    fmt.Printf ("  After modification via ptr1: %+v" +:+ nl) [PUser u]).

(** The first half of [sliceSharingExample]: the three slices are built and
    shown, and [slice1[1] = 99] is executed. The slice headers are handed
    on so that the state after the assignment can be inspected. *)
Definition sliceSharingExample_assign : M (slice * slice * slice) :=
  original <- slice_lit (VInt 0) [VInt 1; VInt 2; VInt 3; VInt 4; VInt 5] ;;
  slice1 <- slice_expr original 1 4 ;;
  slice2 <- slice_from original 2 ;;
  e0 <- slice_elems original ;;
  fmt.Printf ("  Original: %v (len=%d, cap=%d)" +:+ nl)
    [PInts e0; PInt (s_len original); PInt (s_cap original)] ;;
  e1 <- slice_elems slice1 ;;
  fmt.Printf ("  Slice1:   %v (len=%d, cap=%d)" +:+ nl)
    [PInts e1; PInt (s_len slice1); PInt (s_cap slice1)] ;;
  e2 <- slice_elems slice2 ;;
  fmt.Printf ("  Slice2:   %v (len=%d, cap=%d)" +:+ nl)
    [PInts e2; PInt (s_len slice2); PInt (s_cap slice2)] ;;
  index_set slice1 1 (VInt 99) ;;
  ret (original, slice1, slice2).

Definition sliceSharingExample : M unit :=
  call "sliceSharingExample" (
    views <- sliceSharingExample_assign ;;
    let '(original, slice1, slice2) := views in
    fmt.Println [PStr (nl +:+ "  After modifying slice1[1] = 99:")] ;;
    e0 <- slice_elems original ;;
    fmt.Printf ("  Original: %v (affected!)" +:+ nl) [PInts e0] ;;
    e1 <- slice_elems slice1 ;;
    fmt.Printf ("  Slice1:   %v" +:+ nl) [PInts e1] ;;
    e2 <- slice_elems slice2 ;;
    fmt.Printf ("  Slice2:   %v (also affected!)" +:+ nl) [PInts e2] ;;
    fmt.Println [PStr "  All slices share the same backing array on heap"]).

Definition main (fuel : nat) : M unit :=
  call "main" (
    fmt.Println [PStr "=== Go Memory Model Playground ==="] ;;
    fmt.Println [] ;;
    fmt.Println [PStr "1. Stack vs Heap Allocation"] ;;
    stackExample ;;
    heapExample ;;
    fmt.Println [PStr (nl +:+ "2. Pointer Sharing (Multiple References)")] ;;
    pointerSharingExample ;;
    fmt.Println [PStr (nl +:+ "3. Slice Sharing (Shared Backing Array)")] ;;
    sliceSharingExample ;;
    DemonstrateEscapeAnalysis ;;
    DemonstrateMemoryTracking fuel).

(** The exit status of the process: 0 when [main] returns, 2 when the Go
    runtime reports an unrecovered panic; a run that has not finished has
    none. *)
Definition exit_code {A} (r : Result A) : option Z :=
  match r with
  | Ok _ => Some 0
  | Panic _ _ => Some 2
  | OutOfFuel => None
  end.

(** ** What [TrackMemory] adds to a run *)

(** The report of the runtime when [TrackMemory] first asks. *)
Definition stats_before (w : World) : runtime.MemStats :=
  rt_stats w (rt_reads w).

(** The world in which [TrackMemory] calls [fn], having started in [w]. *)
Definition world_at_call (w : World) : World :=
  mkWorld (heap w) (g_interface w) (g_ptr w)
          (trace w ++ [EvCall "TrackMemory"; EvGC;
                       EvReadMemStats (stats_before w); EvInvoke])
          (rt_stats w) (S (rt_reads w)).

(** What [TrackMemory name] adds once [fn] has returned in world [w2]. *)
Definition report (name : string) (w w2 : World) : list Event :=
  let before := stats_before w in
  let after := rt_stats w2 (rt_reads w2) in
  [ EvReadMemStats after;
    EvPrintf (nl +:+ "=== Memory Tracking: %s ===" +:+ nl) [PStr name];
    EvPrintf ("  Total allocated:     %d bytes" +:+ nl)
      [PUint (uint64_sub (runtime.TotalAlloc after) (runtime.TotalAlloc before))];
    EvPrintf ("  Heap allocated:      %d bytes" +:+ nl)
      [PUint (uint64_sub (runtime.HeapAlloc after) (runtime.HeapAlloc before))];
    EvPrintf ("  Heap objects added:  %d" +:+ nl)
      [PUint (uint64_sub (runtime.HeapObjects after) (runtime.HeapObjects before))];
    EvPrintf ("  Mallocs:             %d" +:+ nl)
      [PUint (uint64_sub (runtime.Mallocs after) (runtime.Mallocs before))];
    EvRet "TrackMemory" ].

(** ** Reading a trace *)

Definition is_read (e : Event) : bool :=
  match e with EvReadMemStats _ => true | _ => false end.

Definition is_invoke (e : Event) : bool :=
  match e with EvInvoke => true | _ => false end.

Definition is_output (e : Event) : bool :=
  match e with EvPrintln _ | EvPrintf _ _ => true | _ => false end.

(** The arguments of the [Printf] calls of a trace, in order. *)
Fixpoint printf_args (tr : list Event) : list (list PArg) :=
  match tr with
  | [] => []
  | EvPrintf _ args :: tr' => args :: printf_args tr'
  | _ :: tr' => printf_args tr'
  end.

Definition count (p : Event -> bool) (tr : list Event) : nat :=
  length (List.filter p tr).

(** The events [TrackMemory] itself adds before it calls [fn]. *)
Definition prologue (w : World) : list Event :=
  [EvCall "TrackMemory"; EvGC; EvReadMemStats (stats_before w); EvInvoke].

(** A counter report as the runtime can produce it: four uint64 values. *)
Definition stats_wf (m : runtime.MemStats) : Prop :=
  is_uint64 (runtime.TotalAlloc m) /\ is_uint64 (runtime.HeapAlloc m) /\
  is_uint64 (runtime.HeapObjects m) /\ is_uint64 (runtime.Mallocs m).

(** [d] is what unsigned subtraction yields for [after - before]. *)
Definition wrapped_delta (after before d : Z) : Prop :=
  is_uint64 d /\
  (before <= after -> d = after - before) /\
  (after < before -> d = 2 ^ 64 - (before - after) /\ 0 < d).

(** A sample environment: the heap shrinks between the first and the second
    report (a collection ran), the cumulative counters grow. *)
Definition sample_stats (n : nat) : runtime.MemStats :=
  runtime.mkMemStats (1000 + 16 * Z.of_nat n) (500 - 100 * Z.of_nat n)
                     (20 - 3 * Z.of_nat n) (7 + Z.of_nat n).

Definition is_store (e : Event) : bool :=
  match e with EvStore _ _ _ => true | _ => false end.

Definition is_alloc (e : Event) : bool :=
  match e with EvAlloc _ _ => true | _ => false end.

Definition is_closure (e : Event) : bool :=
  match e with EvClosure _ => true | _ => false end.

Definition is_iter (e : Event) : bool :=
  match e with EvIter _ => true | _ => false end.

(** A store that overwrites a [User] or a [LargeObject]. *)
Definition is_struct_store (e : Event) : bool :=
  match e with
  | EvStore _ (OUser _) _ | EvStore _ (OLarge _) _ => true
  | _ => false
  end.

(** The trace of a finished run. *)
Definition run_trace {A} (r : Result (A * World)) : list Event :=
  match r with Ok (_, w) => trace w | _ => [] end.

(** ** The call structure of a trace *)

Definition on_stack (f : string) (stack : list string) : bool :=
  existsb (String.eqb f) stack.

(** Each event with the functions active when it happens, innermost first.
    A call and its return carry the stack of the caller. *)
Fixpoint annotate (stack : list string) (tr : list Event)
  : list (list string * Event) :=
  match tr with
  | [] => []
  | EvCall f :: tr' => (stack, EvCall f) :: annotate (f :: stack) tr'
  | EvRet f :: tr' => (tail stack, EvRet f) :: annotate (tail stack) tr'
  | e :: tr' => (stack, e) :: annotate stack tr'
  end.

(** What the body of [f] does itself: its own events, and the calls it
    makes and their returns, without what happens inside the callees. *)
Definition body_events (f : string) (tr : list Event) : list Event :=
  map snd (List.filter (fun p => match fst p with
                                 | g :: _ => String.eqb g f
                                 | [] => false
                                 end) (annotate [] tr)).

(** Everything that happens while [f] is active, callees included. *)
Definition events_within (f : string) (tr : list Event) : list Event :=
  map snd (List.filter (fun p => on_stack f (fst p)) (annotate [] tr)).

(** The loop counter values of the iterations run by [f] itself. *)
Definition iters_in (f : string) (tr : list Event) : list Z :=
  omap (fun e => match e with EvIter i => Some i | _ => None end)
       (body_events f tr).

(** The functions called, in order. *)
Definition calls (tr : list Event) : list string :=
  omap (fun e => match e with EvCall f => Some f | _ => None end) tr.

(** No function is entered while it is already active. *)
Definition no_reentrant_calls (tr : list Event) : bool :=
  forallb (fun p => match snd p with
                    | EvCall f => negb (on_stack f (fst p))
                    | _ => true
                    end) (annotate [] tr).

(** Is the call of [f] directly preceded by a [Println]? *)
Fixpoint header_before (f : string) (tr : list Event) : bool :=
  match tr with
  | [] => false
  | EvPrintln _ :: tr' =>
      match tr' with
      | EvCall g :: _ => String.eqb g f || header_before f tr'
      | _ => header_before f tr'
      end
  | _ :: tr' => header_before f tr'
  end.

(** The first demo of each of the five examples [main] is divided into. *)
Definition group_leaders : list string :=
  [ "stackExample"; "pointerSharingExample"; "sliceSharingExample";
    "DemonstrateEscapeAnalysis"; "DemonstrateMemoryTracking" ].

Definition header_before_each_group (tr : list Event) : Prop :=
  forall f, In f group_leaders -> header_before f (body_events "main" tr) = true.

Definition is_panic {A} (r : Result A) : bool :=
  match r with Panic _ _ => true | _ => false end.

(** No existing [User] or [LargeObject] is ever overwritten. *)
Definition never_mutates_structs (tr : list Event) : Prop :=
  forall e, In e tr -> is_struct_store e = false.

Definition is_struct_alloc (e : Event) : bool :=
  match e with
  | EvAlloc _ (OUser _) | EvAlloc _ (OLarge _) => true
  | _ => false
  end.

Definition is_large_alloc (e : Event) : bool :=
  match e with EvAlloc _ (OLarge _) => true | _ => false end.

Definition is_user_alloc (e : Event) : bool :=
  match e with EvAlloc _ (OUser _) => true | _ => false end.

(** ** The escape-analysis demos *)

(** The seven example functions of escape_analysis.go, by name, with the
    value they return dropped. *)
Definition escape_demos : list (string * M unit) :=
  [ ("noEscape", noEscape);
    ("escapesViaReturn", _ <- escapesViaReturn ;; ret tt);
    ("escapesViaInterface", escapesViaInterface);
    ("escapesViaSizeTooLarge", escapesViaSizeTooLarge);
    ("noEscapeLocalPointer", noEscapeLocalPointer);
    ("escapesViaGlobal", escapesViaGlobal);
    ("escapesViaClosure", _ <- escapesViaClosure ;; ret tt) ].

(** The only things an escape demo may do: be called and return, allocate,
    assign a global, build a closure. *)
Definition is_escape_event (e : Event) : bool :=
  match e with
  | EvCall _ | EvRet _ | EvAlloc _ _ | EvGlobalStore _ _ | EvClosure _ => true
  | _ => false
  end.

(** The events a run adds to the trace of the world it started in. *)
Definition new_events (w w' : World) : list Event :=
  drop (length (trace w)) (trace w').

(** What one escape demo is held to, started in any world. *)
Definition tiny_demo (d : string * M unit) : Prop :=
  forall w : World, exists w' : World,
    snd d w = Ok (tt, w') /\
    calls (new_events w w') = [fst d] /\
    (count is_alloc (new_events w w') <= 1)%nat /\
    forallb is_escape_event (new_events w w') = true.





(** ** What the demos build and print *)

(** A [make([]byte, len)] backing array. *)
Definition zeroed_bytes (len : Z) : Obj := OArr (mkArr len (VByte 0) ∅).

(** Where [heapAllocationViaPointer], started with [n] objects in the store,
    puts the data and the struct of its [i]-th [LargeObject]. *)
Definition data_addr (n i : nat) : addr := (1 + 2 * i + n)%nat.
Definition object_addr (n i : nat) : addr := (2 + 2 * i + n)%nat.

Definition large_object (n i : nat) : LargeObject :=
  mkLargeObject (Z.of_nat i) (mkSlice (data_addr n i) 0 1024 1024).

(** The arguments of the five lines [TrackMemory] prints for one demo. *)
Definition delta_args (name : string) (before after : runtime.MemStats)
  : list (list PArg) :=
  [ [PStr name];
    [PUint (uint64_sub (runtime.TotalAlloc after) (runtime.TotalAlloc before))];
    [PUint (uint64_sub (runtime.HeapAlloc after) (runtime.HeapAlloc before))];
    [PUint (uint64_sub (runtime.HeapObjects after) (runtime.HeapObjects before))];
    [PUint (uint64_sub (runtime.Mallocs after) (runtime.Mallocs before))] ].

(** The arguments of the [Println] calls of a trace, in order. *)
Definition println_args (tr : list Event) : list (list PArg) :=
  omap (fun e => match e with EvPrintln args => Some args | _ => None end) tr.

(** The [User] seen through the pointer variable at [var]. *)
Definition user_through (var : addr) : M User :=
  p <- load_var var ;; a <- deref p ;; load_user a.

(** The integer seen through a pointer value. *)
Definition int_through (p : Val) : M Z :=
  a <- deref p ;; v <- load_var a ;; as_int v.

(** The world [w] after more has been allocated and done. *)
Definition later (l : list Obj) (es : list Event) (w : World) : World :=
  mkWorld (heap w ++ l) (g_interface w) (g_ptr w) (trace w ++ es)
          (rt_stats w) (rt_reads w).

(** ** Lines of output, and the shape of one tracked run *)

(** The newline characters of a string. *)
Fixpoint newlines (s : string) : nat :=
  match s with
  | EmptyString => 0%nat
  | String c s' => ((if Ascii.eqb c (ascii_of_nat 10) then 1 else 0) + newlines s')%nat
  end.

Definition arg_newlines (a : PArg) : nat :=
  match a with PStr s => newlines s | _ => 0%nat end.

(** The lines of text an event writes: [Println] ends its line itself,
    [Printf] writes the newlines of its format and of its string
    arguments. *)
Definition lines_printed (e : Event) : nat :=
  match e with
  | EvPrintln args => S (list_sum (map arg_newlines args))
  | EvPrintf format args =>
      (newlines format + list_sum (map arg_newlines args))%nat
  | _ => 0%nat
  end.

(** What the body of [TrackMemory name] does when the function it is given
    does nothing but call [demo]: collection, first report, the call, second
    report, and the five lines. *)
Definition track_body (name demo : string) (before after : runtime.MemStats)
  : list Event :=
  [ EvGC; EvReadMemStats before; EvInvoke; EvCall demo; EvRet demo;
    EvReadMemStats after;
    EvPrintf (nl +:+ "=== Memory Tracking: %s ===" +:+ nl) [PStr name];
    EvPrintf ("  Total allocated:     %d bytes" +:+ nl)
      [PUint (uint64_sub (runtime.TotalAlloc after) (runtime.TotalAlloc before))];
    EvPrintf ("  Heap allocated:      %d bytes" +:+ nl)
      [PUint (uint64_sub (runtime.HeapAlloc after) (runtime.HeapAlloc before))];
    EvPrintf ("  Heap objects added:  %d" +:+ nl)
      [PUint (uint64_sub (runtime.HeapObjects after) (runtime.HeapObjects before))];
    EvPrintf ("  Mallocs:             %d" +:+ nl)
      [PUint (uint64_sub (runtime.Mallocs after) (runtime.Mallocs before))] ].

(** * Properties *)

(** ** Symbolic execution on an arbitrary world *)

Section Exec.
(** Worlds are kept in the shape [h ++ l], [tr ++ es]: an arbitrary
    store and trace, extended by what has been run so far. *)
Variables (h : list Obj) (tr : list Event)
          (st : nat -> runtime.MemStats) (rd : nat).

Lemma bind_run {A B} (m : M A) (k : A -> M B) w a w1 r :
  m w = Ok (a, w1) -> k a w1 = r -> bind m k w = r.
Proof. intros Hm Hk. unfold bind. rewrite Hm. exact Hk. Qed.

Lemma emit_at e l es gi' gp' :
  emit e (mkWorld (h ++ l) gi' gp' (tr ++ es) st rd)
  = Ok (tt, mkWorld (h ++ l) gi' gp' (tr ++ (es ++ [e])) st rd).
Proof. unfold emit. cbn. by rewrite <- app_assoc. Qed.

Lemma alloc_at o l es gi' gp' :
  alloc o (mkWorld (h ++ l) gi' gp' (tr ++ es) st rd)
  = Ok ((length l + length h)%nat,
        mkWorld (h ++ (l ++ [o])) gi' gp'
                (tr ++ (es ++ [EvAlloc (length l + length h)%nat o])) st rd).
Proof.
  unfold alloc. cbn. rewrite length_app, <- !app_assoc.
  by rewrite (Nat.add_comm (length h)).
Qed.

Lemma lookup_at (l : list Obj) (k : nat) :
  (h ++ l) !! (k + length h)%nat = l !! k.
Proof. rewrite lookup_app_r by lia. f_equal. lia. Qed.

Lemma load_at l k o es gi' gp' :
  l !! k = Some o ->
  load (k + length h)%nat (mkWorld (h ++ l) gi' gp' (tr ++ es) st rd)
  = Ok (o, mkWorld (h ++ l) gi' gp' (tr ++ es) st rd).
Proof. intros Hk. unfold load. cbn. by rewrite lookup_at, Hk. Qed.

Lemma store_at l k old o es gi' gp' :
  l !! k = Some old ->
  store (k + length h)%nat o (mkWorld (h ++ l) gi' gp' (tr ++ es) st rd)
  = Ok (tt, mkWorld (h ++ <[k := o]> l) gi' gp'
                    (tr ++ (es ++ [EvStore (k + length h)%nat old o])) st rd).
Proof.
  intros Hk. unfold store. cbn. rewrite lookup_at, Hk.
  rewrite insert_app_r_alt by lia. rewrite <- app_assoc.
  by replace (k + length h - length h)%nat with k by lia.
Qed.

Lemma set_global_at g v l es gi' gp' :
  set_global g v (mkWorld (h ++ l) gi' gp' (tr ++ es) st rd)
  = Ok (tt, mkWorld (h ++ l)
              (match g with globalInterface => v | globalPtr => gi' end)
              (match g with globalInterface => gp' | globalPtr => v end)
              (tr ++ (es ++ [EvGlobalStore g v])) st rd).
Proof. unfold set_global. destruct g; cbn; by rewrite <- app_assoc. Qed.
End Exec.

(** Worlds and traces in the shape above. *)
Lemma world_shape (h : list Obj) (gi gp : Val) (tr : list Event)
    (st : nat -> runtime.MemStats) (rd : nat) :
  mkWorld h gi gp tr st rd = mkWorld (h ++ []) gi gp (tr ++ []) st rd.
Proof. by rewrite !app_nil_r. Qed.

Lemma new_events_app (h : list Obj) (gi gp gi' gp' : Val) (tr es : list Event)
    (l : list Obj) (st : nat -> runtime.MemStats) (rd rd' : nat) :
  new_events (mkWorld h gi gp (tr ++ []) st rd)
             (mkWorld l gi' gp' (tr ++ es) st rd') = es.
Proof. unfold new_events. cbn [trace]. by rewrite app_nil_r, drop_app_length. Qed.

Ltac split_all := repeat match goal with |- _ /\ _ => split end.

(** The offset [k] of an address [k + length h] past the initial store. *)
Ltac offset a :=
  lazymatch a with
  | S ?a' => let k := offset a' in constr:(S k)
  | _ => constr:(O)
  end.

(** Projections of explicit worlds and slices, and list bookkeeping. *)
Ltac norm :=
  cbv beta iota delta [heap g_interface g_ptr trace rt_stats rt_reads
                       s_arr s_off s_len s_cap];
  cbn [app length Nat.add].

(** Replaces a closed term by its value. *)
Ltac evaluate x :=
  let x' := eval vm_compute in x in
  replace x with x' by (vm_compute; reflexivity).

(** Runs a monadic program on a world of the shape above, one primitive
    at a time. *)
Ltac run :=
  norm;
  lazymatch goal with
  | |- bind _ _ _ = _ => eapply bind_run; [run | run]
  | |- ret _ _ = _ => reflexivity
  | |- emit _ _ = _ => apply emit_at
  | |- alloc _ _ = _ => apply alloc_at
  | |- set_global _ _ _ = _ => apply set_global_at
  | |- load ?a (mkWorld (?h ++ ?l) _ _ _ _ _) = _ =>
      let k := offset a in apply (load_at h _ _ _ l k); reflexivity
  | |- store ?a _ (mkWorld (?h ++ ?l) _ _ _ _ _) = _ =>
      let k := offset a in eapply (store_at h _ _ _ l k); reflexivity
  | |- (if ?c then _ else _) _ = _ => evaluate c; run
  | |- (match ?x with _ => _ end) _ = _ => evaluate x; run
  | |- ?f _ _ _ _ = _ => unfold f; run
  | |- ?f _ _ _ = _ => unfold f; run
  | |- ?f _ _ = _ => unfold f; run
  | |- ?f _ = _ => unfold f; run
  end.


(** ** Arithmetic of the counters *)

Lemma uint64_sub_range (a b : Z) : is_uint64 (uint64_sub a b).
Proof.
  unfold is_uint64, uint64_sub, uint64_max.
  pose proof (Z.mod_pos_bound (a - b) (2 ^ 64) eq_refl). lia.
Qed.

Lemma uint64_sub_ge (a b : Z) :
  is_uint64 a -> is_uint64 b -> b <= a -> uint64_sub a b = a - b.
Proof.
  unfold is_uint64, uint64_sub, uint64_max. intros Ha Hb Hle.
  apply Z.mod_small. lia.
Qed.

Lemma uint64_sub_lt (a b : Z) :
  is_uint64 a -> is_uint64 b -> a < b -> uint64_sub a b = a - b + 2 ^ 64.
Proof.
  unfold is_uint64, uint64_sub, uint64_max. intros Ha Hb Hlt.
  rewrite <- (Z_mod_plus_full (a - b) 1 (2 ^ 64)), Z.mul_1_l.
  apply Z.mod_small. lia.
Qed.

(** ** Running [TrackMemory] *)

Lemma TrackMemory_unfold (name : string) (fn : M unit) (w : World) :
  TrackMemory name fn w =
  match fn (world_at_call w) with
  | Ok (_, w2) =>
      Ok (tt, mkWorld (heap w2) (g_interface w2) (g_ptr w2)
                      (trace w2 ++ report name w w2)
                      (rt_stats w2) (S (rt_reads w2)))
  | Panic msg w2 => Panic msg w2
  | OutOfFuel => OutOfFuel
  end.
Proof.
  unfold TrackMemory, call, invoke, runtimeOps.GC, runtimeOps.ReadMemStats,
    fmt.Printf, bind, emit, ret, world_at_call, report, stats_before.
  cbn [heap g_interface g_ptr trace rt_stats rt_reads Before After].
  rewrite <- !app_assoc. cbn [app].
  destruct (fn _) as [[[] w2]| |]; [|reflexivity..].
  cbn [heap g_interface g_ptr trace rt_stats rt_reads].
  rewrite <- !app_assoc. reflexivity.
Qed.

Lemma uint64_sub_wrapped (a b : Z) :
  is_uint64 a -> is_uint64 b -> wrapped_delta a b (uint64_sub a b).
Proof.
  intros Ha Hb. split; [apply uint64_sub_range|]. split; intros Hab.
  - by apply uint64_sub_ge.
  - rewrite uint64_sub_lt by done.
    unfold is_uint64, uint64_max in *. lia.
Qed.

(** C1: for every function [fn] that returns, [TrackMemory name fn] reads the
    statistics once, calls [fn] once in the world so reached, reads the
    statistics once more, and prints the header naming the demo followed by
    exactly the four differences After - Before of TotalAlloc, HeapAlloc,
    HeapObjects and Mallocs; it adds nothing else to the trace. *)
Theorem TrackMemory_reads_calls_prints (name : string) (fn : M unit) (w w2 : World) :
  fn (world_at_call w) = Ok (tt, w2) ->
  let before := rt_stats w (rt_reads w) in
  let after := rt_stats w2 (rt_reads w2) in
  TrackMemory name fn w =
    Ok (tt, mkWorld (heap w2) (g_interface w2) (g_ptr w2)
                    (trace w2 ++ report name w w2)
                    (rt_stats w2) (S (rt_reads w2))) /\
  trace (world_at_call w) = trace w ++ prologue w /\
  count is_read (prologue w) = 1%nat /\
  count is_invoke (prologue w) = 1%nat /\
  List.filter is_read (report name w w2) = [EvReadMemStats after] /\
  count is_invoke (report name w w2) = 0%nat /\
  count is_output (report name w w2) = 5%nat /\
  printf_args (report name w w2) =
    [ [PStr name];
      [PUint (uint64_sub (runtime.TotalAlloc after) (runtime.TotalAlloc before))];
      [PUint (uint64_sub (runtime.HeapAlloc after) (runtime.HeapAlloc before))];
      [PUint (uint64_sub (runtime.HeapObjects after) (runtime.HeapObjects before))];
      [PUint (uint64_sub (runtime.Mallocs after) (runtime.Mallocs before))] ].
Proof.
  intros Hfn before after. rewrite TrackMemory_unfold, Hfn.
  repeat split; reflexivity.
Qed.

Lemma TrackMemory_reads_calls_prints_witness :
  let w := init_world sample_stats in
  let w2 := mkWorld [] (VIface None) (VPtr None)
              (prologue w ++ [EvCall "stackOnlyAllocation";
                              EvRet "stackOnlyAllocation"])
              sample_stats 1 in
  stackOnlyAllocation (world_at_call w) = Ok (tt, w2) /\
  printf_args (report "Stack Only (should be minimal)" w w2) =
    [ [PStr "Stack Only (should be minimal)"];
      [PUint 16]; [PUint 18446744073709551516];
      [PUint 18446744073709551613]; [PUint 1] ].
Proof.
  intros w w2.
  assert (H : stackOnlyAllocation (world_at_call w) = Ok (tt, w2)) by reflexivity.
  split; [exact H|].
  destruct (TrackMemory_reads_calls_prints
              "Stack Only (should be minimal)" stackOnlyAllocation w w2 H)
    as (_ & _ & _ & _ & _ & _ & _ & Hargs).
  rewrite Hargs. reflexivity.
Defined.

(** C8: the four differences are unsigned 64-bit subtractions. Whenever a
    counter is smaller after [fn] than before, the value printed for it is
    2^64 minus the decrease, a positive number, and never a negative one;
    [TrackMemory] returns normally all the same. *)
Theorem TrackMemory_delta_wraps (name : string) (fn : M unit) (w w2 : World) :
  fn (world_at_call w) = Ok (tt, w2) ->
  stats_wf (rt_stats w (rt_reads w)) ->
  stats_wf (rt_stats w2 (rt_reads w2)) ->
  let before := rt_stats w (rt_reads w) in
  let after := rt_stats w2 (rt_reads w2) in
  exists (w3 : World) (dT dH dO dM : Z),
    TrackMemory name fn w = Ok (tt, w3) /\
    printf_args (drop (length (trace w2)) (trace w3)) =
      [[PStr name]; [PUint dT]; [PUint dH]; [PUint dO]; [PUint dM]] /\
    wrapped_delta (runtime.TotalAlloc after) (runtime.TotalAlloc before) dT /\
    wrapped_delta (runtime.HeapAlloc after) (runtime.HeapAlloc before) dH /\
    wrapped_delta (runtime.HeapObjects after) (runtime.HeapObjects before) dO /\
    wrapped_delta (runtime.Mallocs after) (runtime.Mallocs before) dM.
Proof.
  intros Hfn (HbT & HbH & HbO & HbM) (HaT & HaH & HaO & HaM) before after.
  eexists _, _, _, _, _. split.
  { rewrite TrackMemory_unfold, Hfn. reflexivity. }
  cbn [trace]. rewrite drop_app_length.
  split; [reflexivity|].
  repeat split; by apply uint64_sub_wrapped.
Qed.

(** ** Slice sharing *)

(** C3: [sliceSharingExample], called in any world, builds one backing
    array holding 1, 2, 3, 4, 5 and three slices on it,
    [original] (offset 0, len 5), [slice1 = original[1:4]] (offset 1, len 3,
    cap 4) and [slice2 = original[2:]] (offset 2, len 3). It executes exactly
    one store, the assignment [slice1[1] = 99], on that array. After the
    function has returned, [original[2]], [slice1[1]] and [slice2[0]] all
    read 99, the other elements of [original] still read 1, 2, 4 and 5, and
    the three lines printed after the assignment show [1 2 99 4 5],
    [2 99 4] and [99 4 5]. *)
Theorem slice_write_seen_by_all_views (w : World) :
  let n := length (heap w) in
  let original := mkSlice n 0 5 5 in
  let slice1 := mkSlice n 1 3 4 in
  let slice2 := mkSlice n 2 3 3 in
  exists (before after : Arr) (w0 w1 w' : World),
    sliceSharingExample w = Ok (tt, w') /\
    heap w' = heap w ++ [OArr after] /\
    List.filter is_store (new_events w w') =
      [EvStore n (OArr before) (OArr after)] /\
    arr_window before 0 5 = Some [VInt 1; VInt 2; VInt 3; VInt 4; VInt 5] /\
    arr_window after 0 5 = Some [VInt 1; VInt 2; VInt 99; VInt 4; VInt 5] /\
    emit (EvCall "sliceSharingExample") w = Ok (tt, w0) /\
    sliceSharingExample_assign w0 = Ok ((original, slice1, slice2), w1) /\
    heap w1 = heap w' /\
    printf_args (new_events w w') =
      [ [PInts [VInt 1; VInt 2; VInt 3; VInt 4; VInt 5]; PInt 5; PInt 5];
        [PInts [VInt 2; VInt 3; VInt 4]; PInt 3; PInt 4];
        [PInts [VInt 3; VInt 4; VInt 5]; PInt 3; PInt 3];
        [PInts [VInt 1; VInt 2; VInt 99; VInt 4; VInt 5]];
        [PInts [VInt 2; VInt 99; VInt 4]];
        [PInts [VInt 99; VInt 4; VInt 5]] ] /\
    index_get original 2 w' = Ok (VInt 99, w') /\
    index_get slice1 1 w' = Ok (VInt 99, w') /\
    index_get slice2 0 w' = Ok (VInt 99, w') /\
    index_get original 0 w' = Ok (VInt 1, w') /\
    index_get original 1 w' = Ok (VInt 2, w') /\
    index_get original 3 w' = Ok (VInt 4, w') /\
    index_get original 4 w' = Ok (VInt 5, w').
Proof.
  intros n original slice1 slice2. subst n original slice1 slice2.
  destruct w as [h gi gp tr st rd].
  cbn [heap g_interface g_ptr trace rt_stats rt_reads].
  rewrite (world_shape h gi gp tr st rd).
  eexists _, _, _, _, _. split; [run|].
  rewrite new_events_app. cbn [heap].
  split; [reflexivity|]. split; [reflexivity|].
  split; [vm_compute; reflexivity|]. split; [vm_compute; reflexivity|].
  split; [run|]. split; [run|].
  split; [reflexivity|]. split; [reflexivity|].
  split_all; run.
Qed.

(** ** The run of [main] *)

Lemma main_skeleton (stats : nat -> runtime.MemStats) (k : nat) :
  body_events "main" (run_trace (main (101 + k) (init_world stats))) =
  [ EvPrintln [PStr "=== Go Memory Model Playground ==="];
    EvPrintln [];
    EvPrintln [PStr "1. Stack vs Heap Allocation"];
    EvCall "stackExample"; EvRet "stackExample";
    EvCall "heapExample"; EvRet "heapExample";
    EvPrintln [PStr (nl +:+ "2. Pointer Sharing (Multiple References)")];
    EvCall "pointerSharingExample"; EvRet "pointerSharingExample";
    EvPrintln [PStr (nl +:+ "3. Slice Sharing (Shared Backing Array)")];
    EvCall "sliceSharingExample"; EvRet "sliceSharingExample";
    EvCall "DemonstrateEscapeAnalysis"; EvRet "DemonstrateEscapeAnalysis";
    EvCall "DemonstrateMemoryTracking"; EvRet "DemonstrateMemoryTracking" ].
Proof. vm_compute. reflexivity. Qed.

Lemma main_returns (stats : nat -> runtime.MemStats) (k : nat) :
  exit_code (main (101 + k) (init_world stats)) = Some 0.
Proof. vm_compute. reflexivity. Qed.

(** C2, as stated, fails: no header is printed before the call of
    [DemonstrateEscapeAnalysis] (nor, by [main], before
    [DemonstrateMemoryTracking]). *)
Lemma main_header_before_each_group_fails :
  ~ header_before_each_group (run_trace (main 101 (init_world sample_stats))).
Proof.
  intros H.
  specialize (H "DemonstrateEscapeAnalysis").
  assert (Hin : In "DemonstrateEscapeAnalysis" group_leaders)
    by (cbn; tauto).
  specialize (H Hin). vm_compute in H. discriminate H.
Qed.

(** C2, amended: [main] returns (exit code 0) having called each demo
    exactly once, in the order stackExample, heapExample,
    pointerSharingExample, sliceSharingExample, DemonstrateEscapeAnalysis,
    DemonstrateMemoryTracking, each call returning before the next, with
    nothing between them but the three numbered headers, printed directly
    before stackExample, pointerSharingExample and sliceSharingExample.
    No header precedes DemonstrateEscapeAnalysis, which prints nothing;
    the header of the memory-tracking part is printed by
    DemonstrateMemoryTracking itself. *)
Theorem main_calls_each_demo_once (stats : nat -> runtime.MemStats) (k : nat) :
  let r := main (101 + k) (init_world stats) in
  let body := body_events "main" (run_trace r) in
  exit_code r = Some 0 /\
  body =
    [ EvPrintln [PStr "=== Go Memory Model Playground ==="];
      EvPrintln [];
      EvPrintln [PStr "1. Stack vs Heap Allocation"];
      EvCall "stackExample"; EvRet "stackExample";
      EvCall "heapExample"; EvRet "heapExample";
      EvPrintln [PStr (nl +:+ "2. Pointer Sharing (Multiple References)")];
      EvCall "pointerSharingExample"; EvRet "pointerSharingExample";
      EvPrintln [PStr (nl +:+ "3. Slice Sharing (Shared Backing Array)")];
      EvCall "sliceSharingExample"; EvRet "sliceSharingExample";
      EvCall "DemonstrateEscapeAnalysis"; EvRet "DemonstrateEscapeAnalysis";
      EvCall "DemonstrateMemoryTracking"; EvRet "DemonstrateMemoryTracking" ] /\
  calls body =
    [ "stackExample"; "heapExample"; "pointerSharingExample";
      "sliceSharingExample"; "DemonstrateEscapeAnalysis";
      "DemonstrateMemoryTracking" ] /\
  header_before "stackExample" body = true /\
  header_before "pointerSharingExample" body = true /\
  header_before "sliceSharingExample" body = true /\
  header_before "DemonstrateEscapeAnalysis" body = false /\
  header_before "DemonstrateMemoryTracking" body = false /\
  List.filter is_output (events_within "DemonstrateEscapeAnalysis" (run_trace r)) = [] /\
  firstn 3 (body_events "DemonstrateMemoryTracking" (run_trace r)) =
    [ EvPrintln [PStr (nl +:+ banner)];
      EvPrintln [PStr "MEMORY ALLOCATION TRACKING"];
      EvPrintln [PStr banner] ].
Proof.
  intros r body. subst body r.
  split; [apply main_returns|].
  rewrite main_skeleton.
  repeat split; vm_compute; reflexivity.
Qed.

(** ** Mutation of the two struct types *)

(** C4, as stated, fails: [pointerSharingExample] overwrites the [Age] of
    the [User] it has built. *)
Lemma struct_never_mutated_fails :
  ~ never_mutates_structs (run_trace (main 101 (init_world sample_stats))).
Proof.
  intros H.
  set (e := EvStore 1%nat (OUser (mkUser "Bob" 25)) (OUser (mkUser "Bob" 26))).
  assert (Hin : In e (List.filter is_struct_store
                        (run_trace (main 101 (init_world sample_stats)))))
    by (vm_compute; left; reflexivity).
  pose proof (proj1 (filter_In is_struct_store e _) Hin) as [Hin' _].
  specialize (H e Hin'). discriminate H.
Qed.

(** C4, amended: in a run of [main] two [User]s and ten [LargeObject]s are
    built. Exactly one store ever overwrites one of them: the assignment
    [ptr1.Age = 26] in [pointerSharingExample], which changes the [Age] of
    the [User] built there from 25 to 26 and leaves its [Name]. The [User]
    built by [createUser] and every [LargeObject] are never overwritten. *)
Theorem struct_mutated_once (stats : nat -> runtime.MemStats) (k : nat) :
  let tr := run_trace (main (101 + k) (init_world stats)) in
  List.filter is_struct_store tr =
    [EvStore 1%nat (OUser (mkUser "Bob" 25)) (OUser (mkUser "Bob" 26))] /\
  List.filter is_struct_store (events_within "pointerSharingExample" tr) =
    [EvStore 1%nat (OUser (mkUser "Bob" 25)) (OUser (mkUser "Bob" 26))] /\
  List.filter is_user_alloc tr =
    [EvAlloc 0%nat (OUser (mkUser "Alice" 30)); EvAlloc 1%nat (OUser (mkUser "Bob" 25))] /\
  List.filter is_user_alloc (events_within "createUser" tr) =
    [EvAlloc 0%nat (OUser (mkUser "Alice" 30))] /\
  count is_large_alloc tr = 10%nat.
Proof. intros tr. subst tr. repeat split; vm_compute; reflexivity. Qed.

(** ** Absence of failures, and termination *)

Lemma main_short_of_fuel (stats : nat -> runtime.MemStats) (fuel : nat) :
  (fuel < 101)%nat -> main fuel (init_world stats) = OutOfFuel.
Proof.
  intros Hlt.
  do 101 (destruct fuel as [|fuel]; [vm_compute; reflexivity|]).
  lia.
Qed.

(** C7: no run of [main] fails. Whatever the runtime reports and however
    far the run is followed, no slice bound, index, or nil check of the
    program panics; and followed to its end, the run returns, so that the
    process exits with code 0. *)
Theorem main_has_no_failure_path (stats : nat -> runtime.MemStats) (fuel k : nat) :
  is_panic (main fuel (init_world stats)) = false /\
  exit_code (main (101 + k) (init_world stats)) = Some 0.
Proof.
  split; [|apply main_returns].
  destruct (Nat.lt_ge_cases fuel 101) as [Hlt|Hge].
  - by rewrite main_short_of_fuel.
  - replace fuel with (101 + (fuel - 101))%nat by lia.
    pose proof (main_returns stats (fuel - 101)) as Hret.
    destruct (main _ _); [reflexivity|discriminate Hret|reflexivity].
Qed.

(** C9: every run of [main] terminates. With room for 101 loop tests
    (or more) the run returns; the loop of [heapAllocationViaPointer] runs
    for i = 0..9 and the loop of [stackStructAllocation] for i = 0..99, each
    once through; there are no other iterations, and no function is entered
    while it is already active (no recursion). *)
Theorem main_terminates (stats : nat -> runtime.MemStats) (k : nat) :
  let r := main (101 + k) (init_world stats) in
  exit_code r = Some 0 /\
  iters_in "heapAllocationViaPointer" (run_trace r) = Z.of_nat <$> seq 0 10 /\
  iters_in "stackStructAllocation" (run_trace r) = Z.of_nat <$> seq 0 100 /\
  count is_iter (run_trace r) = 110%nat /\
  no_reentrant_calls (run_trace r) = true.
Proof.
  intros r. subst r.
  split; [apply main_returns|].
  repeat split; vm_compute; reflexivity.
Qed.

(** ** The escape-analysis program *)


Ltac run_demo :=
  let w := fresh "w" in
  intros w; destruct w as [h gi gp tr st rd];
  rewrite <- (app_nil_r h), <- (app_nil_r tr);
  eexists; split; [cbn [snd]; run|];
  rewrite new_events_app; split_all; [reflexivity | cbn; lia | reflexivity].

Lemma escape_demos_tiny : Forall tiny_demo escape_demos.
Proof. unfold escape_demos. repeat constructor; unfold tiny_demo; run_demo. Qed.

Lemma DemonstrateEscapeAnalysis_run (h : list Obj) (gi gp : Val)
    (tr : list Event) (st : nat -> runtime.MemStats) (rd : nat) :
  let n := length h in
  DemonstrateEscapeAnalysis (mkWorld (h ++ []) gi gp (tr ++ []) st rd) =
  Ok (tt, mkWorld
    (h ++ [ OVar (VInt 42); OVar (VInt 42);
            OArr (mkArr 1000000 (VInt 0) ∅);
            OVar (VInt 42); OVar (VInt 42); OVar (VInt 42) ])
    (VIface (Some ("int", S n)))
    (VPtr (Some (4 + n)%nat))
    (tr ++ [ EvCall "DemonstrateEscapeAnalysis";
             EvCall "noEscape"; EvRet "noEscape";
             EvCall "escapesViaReturn"; EvAlloc n (OVar (VInt 42));
             EvRet "escapesViaReturn";
             EvCall "escapesViaInterface"; EvAlloc (S n) (OVar (VInt 42));
             EvGlobalStore globalInterface (VIface (Some ("int", S n)));
             EvRet "escapesViaInterface";
             EvCall "escapesViaSizeTooLarge";
             EvAlloc (2 + n)%nat (OArr (mkArr 1000000 (VInt 0) ∅));
             EvRet "escapesViaSizeTooLarge";
             EvCall "noEscapeLocalPointer"; EvAlloc (3 + n)%nat (OVar (VInt 42));
             EvRet "noEscapeLocalPointer";
             EvCall "escapesViaGlobal"; EvAlloc (4 + n)%nat (OVar (VInt 42));
             EvGlobalStore globalPtr (VPtr (Some (4 + n)%nat));
             EvRet "escapesViaGlobal";
             EvCall "escapesViaClosure"; EvAlloc (5 + n)%nat (OVar (VInt 42));
             EvClosure [(5 + n)%nat]; EvRet "escapesViaClosure";
             EvInvoke;
             EvRet "DemonstrateEscapeAnalysis" ])
    st rd).
Proof. intros n. subst n. run. Qed.

(** C6: the escape-analysis program is seven demo functions (between five
    and seven), all different, and a driver. Started in any world, each demo
    returns, allocates at most once, and does nothing but allocate, assign a
    global or build a closure; it prints nothing and overwrites nothing.
    The driver calls each of the seven exactly once, in the order of the
    file, and besides that only invokes the closure it got back. *)
Theorem escape_analysis_is_seven_tiny_demos (w : World) :
  (5 <= length escape_demos <= 7)%nat /\
  NoDup (map fst escape_demos) /\
  Forall tiny_demo escape_demos /\
  exists w' : World,
    DemonstrateEscapeAnalysis w = Ok (tt, w') /\
    calls (body_events "DemonstrateEscapeAnalysis" (new_events w w')) =
      map fst escape_demos /\
    count is_alloc (new_events w w') = 6%nat /\
    forallb (fun e => is_escape_event e || is_invoke e) (new_events w w') = true.
Proof.
  split; [cbn; lia|].
  split; [by apply (bool_decide_unpack _); vm_compute|].
  split; [apply escape_demos_tiny|].
  destruct w as [h gi gp tr st rd].
  rewrite <- (app_nil_r h), <- (app_nil_r tr).
  eexists. split; [apply DemonstrateEscapeAnalysis_run|].
  rewrite new_events_app. split_all; reflexivity.
Qed.



(** ** A run in which a counter decreases *)

Lemma TrackMemory_delta_wraps_witness :
  let w := init_world sample_stats in
  let w2 := mkWorld [] (VIface None) (VPtr None)
              (prologue w ++ [EvCall "stackOnlyAllocation";
                              EvRet "stackOnlyAllocation"])
              sample_stats 1 in
  stackOnlyAllocation (world_at_call w) = Ok (tt, w2) /\
  stats_wf (sample_stats 0) /\ stats_wf (sample_stats 1) /\
  runtime.HeapAlloc (sample_stats 1) < runtime.HeapAlloc (sample_stats 0) /\
  exists (w3 : World) (dT dH dO dM : Z),
    TrackMemory "Stack Only (should be minimal)" stackOnlyAllocation w
      = Ok (tt, w3) /\
    printf_args (drop (length (trace w2)) (trace w3)) =
      [ [PStr "Stack Only (should be minimal)"];
        [PUint dT]; [PUint dH]; [PUint dO]; [PUint dM] ] /\
    wrapped_delta 1016 1000 dT /\ wrapped_delta 400 500 dH /\
    wrapped_delta 17 20 dO /\ wrapped_delta 8 7 dM.
Proof.
  intros w w2.
  assert (Hfn : stackOnlyAllocation (world_at_call w) = Ok (tt, w2))
    by reflexivity.
  assert (H0 : stats_wf (sample_stats 0))
    by (unfold stats_wf, is_uint64, uint64_max; cbn; lia).
  assert (H1 : stats_wf (sample_stats 1))
    by (unfold stats_wf, is_uint64, uint64_max; cbn; lia).
  split; [exact Hfn|]. split; [exact H0|]. split; [exact H1|].
  split; [cbn; lia|].
  exact (TrackMemory_delta_wraps "Stack Only (should be minimal)"
           stackOnlyAllocation w w2 Hfn H0 H1).
Defined.

(** * Further properties of the demos *)

(** ** Symbolic execution, continued: loops, statistics, array updates *)

Lemma read_at (h : list Obj) (tr : list Event) (st : nat -> runtime.MemStats)
    (rd : nat) (l : list Obj) (es : list Event) (gi gp : Val) :
  runtimeOps.ReadMemStats (mkWorld (h ++ l) gi gp (tr ++ es) st rd)
  = Ok (st rd, mkWorld (h ++ l) gi gp
                       (tr ++ (es ++ [EvReadMemStats (st rd)])) st (S rd)).
Proof. unfold runtimeOps.ReadMemStats. cbn. by rewrite <- app_assoc. Qed.

Lemma for_loop_run {S} (fuel : nat) (cond : Z -> bool) (body : Z -> S -> M S)
    (i : Z) (s : S) (w : World) (r : Result (S * World)) :
  (if cond i
   then bind (emit (EvIter i)) (fun _ => bind (body i s) (fun s' =>
          for_loop fuel cond body (int_add i 1) s'))
   else ret s) w = r ->
  for_loop (Datatypes.S fuel) cond body i s w = r.
Proof. intros H. exact H. Qed.

Lemma arr_set_in (x : Arr) (i : Z) (v : Val) :
  (0 <=? i) && (i <? a_len x) = true ->
  arr_set x i v = Some (mkArr (a_len x) (a_zero x) (<[i := v]> (a_cells x))).
Proof. intros H. unfold arr_set. by rewrite H. Qed.

Ltac norm_store :=
  cbv beta iota delta [heap g_interface g_ptr trace rt_stats rt_reads
                       s_arr s_off s_len s_cap a_len a_zero a_cells];
  cbn [insert list_insert app length Nat.add].

(** As [run], with loops unrolled, loop counters evaluated and array
    updates kept as updates. *)
Ltac exec :=
  norm_store;
  lazymatch goal with
  | |- bind _ _ _ = _ => eapply bind_run; [exec | exec]
  | |- ret _ _ = _ => reflexivity
  | |- emit _ _ = _ => apply emit_at
  | |- alloc _ _ = _ => apply alloc_at
  | |- set_global _ _ _ = _ => apply set_global_at
  | |- runtimeOps.ReadMemStats _ = _ => apply read_at
  | |- load ?a (mkWorld (?h ++ ?l) _ _ _ _ _) = _ =>
      let k := offset a in apply (load_at h _ _ _ l k); reflexivity
  | |- store ?a _ (mkWorld (?h ++ ?l) _ _ _ _ _) = _ =>
      let k := offset a in eapply (store_at h _ _ _ l k); reflexivity
  | |- for_loop (Datatypes.S _) _ _ ?i _ _ = _ =>
      apply for_loop_run; evaluate (int_add i 1); exec
  | |- (if ?c then _ else _) _ = _ => evaluate c; exec
  | |- (match arr_set ?x ?i ?v with _ => _ end) _ = _ =>
      rewrite (arr_set_in x i v) by (vm_compute; reflexivity); exec
  | |- (match ?x with _ => _ end) _ = _ => evaluate x; exec
  | |- ?f _ _ _ _ = _ => unfold f; exec
  | |- ?f _ _ _ = _ => unfold f; exec
  | |- ?f _ _ = _ => unfold f; exec
  | |- ?f _ = _ => unfold f; exec
  end.


(** Puts an arbitrary world in the shape the execution lemmas expect. *)
Ltac shape w :=
  let h := fresh "h" in let gi := fresh "gi" in let gp := fresh "gp" in
  let tr := fresh "tr" in let st := fresh "st" in let rd := fresh "rd" in
  destruct w as [h gi gp tr st rd];
  cbn [heap g_interface g_ptr trace rt_stats rt_reads];
  rewrite (world_shape h gi gp tr st rd).

(** ** Building large objects *)

Lemma in_range_test (i len : Z) :
  0 <= i < len -> (0 <=? i) && (i <? len) = true.
Proof.
  intros [H0 H1]. apply andb_true_intro.
  split; [by apply Z.leb_le | by apply Z.ltb_lt].
Qed.

(** X1: [createLargeObject id], in any world, returns a non-nil pointer to
    a new [LargeObject] whose [ID] is [id] and whose [Data] is a new slice of
    length and capacity 1024 over its own backing array: every byte of it
    reads zero, and index 1024 is out of range. Two objects are added to the
    store; nothing that was there, and no global, is changed. *)
Theorem createLargeObject_fresh_zeroed (id i : Z) (w : World) :
  0 <= i < 1024 ->
  exists (l : LargeObject) (w' : World),
    createLargeObject id w = Ok (VPtr (Some (S (length (heap w)))), w') /\
    heap w' = heap w ++ [zeroed_bytes 1024; OLarge l] /\
    g_interface w' = g_interface w /\ g_ptr w' = g_ptr w /\
    ID l = id /\
    Data l = mkSlice (length (heap w)) 0 1024 1024 /\
    index_get (Data l) i w' = Ok (VByte 0, w') /\
    index_get (Data l) 1024 w' = Panic "index out of range" w'.
Proof.
  intros Hi. shape w. eexists _, _. split; [exec|].
  split; [reflexivity|]. split; [reflexivity|]. split; [reflexivity|].
  split; [reflexivity|]. split; [reflexivity|].
  split; [|reflexivity].
  unfold index_get. cbv beta iota delta [Data s_len s_arr s_off].
  pose proof (in_range_test i 1024 Hi) as Hin. rewrite Hin.
  eapply bind_run.
  { unfold load_arr. eapply bind_run.
    - apply (load_at h _ _ _ _ 0%nat). reflexivity.
    - reflexivity. }
  cbv beta. unfold arr_get. cbn [a_len a_zero a_cells].
  rewrite Z.add_0_l, Hin, lookup_empty. reflexivity.
Qed.

Lemma createLargeObject_fresh_zeroed_witness :
  exists (l : LargeObject) (w' : World),
    createLargeObject 7 (init_world sample_stats) = Ok (VPtr (Some 1%nat), w') /\
    heap w' = [zeroed_bytes 1024; OLarge l] /\
    ID l = 7 /\
    index_get (Data l) 1023 w' = Ok (VByte 0, w') /\
    index_get (Data l) 1024 w' = Panic "index out of range" w'.
Proof.
  assert (Hi : 0 <= 1023 < 1024) by lia.
  destruct (createLargeObject_fresh_zeroed 7 1023 (init_world sample_stats) Hi)
    as (l & w' & Hrun & Hheap & _ & _ & Hid & _ & Hget & Hout).
  exists l, w'. split_all; assumption.
Defined.

(** ** The loop of [heapAllocationViaPointer] *)

(** X2: started in any world with room for eleven loop tests or more,
    [heapAllocationViaPointer] returns having added 21 objects to the
    store: the array of ten pointers, and for each i = 0..9 a zeroed
    1024-byte array followed by the [LargeObject] with [ID] i whose [Data]
    is that array. Slot i of the pointer array holds the address of the
    i-th object: no slot is left nil and no two objects share their data.
    Nothing that was in the store, and no global, is changed. *)
Theorem heapAllocationViaPointer_builds_ten (w : World) (k : nat) :
  let n := length (heap w) in
  exists (objects : Arr) (w' : World),
    heapAllocationViaPointer (11 + k) w = Ok (tt, w') /\
    heap w' =
      heap w ++ OArr objects ::
        flat_map (fun i => [zeroed_bytes 1024; OLarge (large_object n i)])
                 (seq 0 10) /\
    a_len objects = 10 /\
    Forall (fun i => arr_get objects (Z.of_nat i)
                     = Some (VPtr (Some (object_addr n i)))) (seq 0 10) /\
    g_interface w' = g_interface w /\ g_ptr w' = g_ptr w /\
    count is_alloc (new_events w w') = 21%nat /\
    count is_output (new_events w w') = 0%nat.
Proof.
  intros n. subst n. shape w. eexists _, _. split; [exec|].
  rewrite new_events_app. cbn [heap g_interface g_ptr].
  split; [reflexivity|]. split; [reflexivity|].
  split; [repeat constructor; vm_compute; reflexivity|].
  split_all; reflexivity.
Qed.

(** ** The loop of [stackStructAllocation] *)

(** X3: started in any world with room for 101 loop tests or more,
    [stackStructAllocation] returns and leaves the world as it found it:
    nothing is allocated, stored, printed or read from the runtime. All it
    does is run its loop body for i = 0, 1, ..., 99, once each. *)
Theorem stackStructAllocation_allocates_nothing (w : World) (k : nat) :
  exists w' : World,
    stackStructAllocation (101 + k) w = Ok (tt, w') /\
    heap w' = heap w /\
    g_interface w' = g_interface w /\ g_ptr w' = g_ptr w /\
    rt_reads w' = rt_reads w /\
    new_events w w' =
      EvCall "stackStructAllocation" ::
      map (fun i => EvIter (Z.of_nat i)) (seq 0 100) ++
      [EvRet "stackStructAllocation"].
Proof.
  shape w. eexists. split; [exec|].
  rewrite new_events_app. cbn [heap g_interface g_ptr rt_reads].
  rewrite app_nil_r. split_all; reflexivity.
Qed.

(** ** [TrackMemory] and a function that panics *)

(** X4: [TrackMemory] does not recover. When [fn] panics, the panic leaves
    [TrackMemory] with the same message and in the very world [fn] panicked
    in: after the panic the statistics are not read again and nothing is
    printed. *)
Theorem TrackMemory_propagates_panic (name msg : string) (fn : M unit)
    (w w2 : World) :
  fn (world_at_call w) = Panic msg w2 ->
  TrackMemory name fn w = Panic msg w2.
Proof. intros Hfn. rewrite TrackMemory_unfold, Hfn. reflexivity. Qed.

Lemma TrackMemory_propagates_panic_witness :
  let fn : M unit := _ <- deref (VPtr None) ;; ret tt in
  let w := init_world sample_stats in
  fn (world_at_call w) = Panic "nil pointer dereference" (world_at_call w) /\
  TrackMemory "Stack Only (should be minimal)" fn w
    = Panic "nil pointer dereference" (world_at_call w) /\
  count is_read (trace (world_at_call w)) = 1%nat /\
  count is_output (trace (world_at_call w)) = 0%nat.
Proof.
  intros fn w. split; [reflexivity|]. split; [|split; reflexivity].
  apply (TrackMemory_propagates_panic _ "nil pointer dereference" fn
           w (world_at_call w)).
  reflexivity.
Defined.

(** ** The four reports of [DemonstrateMemoryTracking] *)

(** X5: started in any world with room for 101 loop tests or more,
    [DemonstrateMemoryTracking] returns. It runs the four demos in the order
    stackOnlyAllocation, stackStructAllocation, heapAllocationViaPointer,
    largeAllocation, each inside its own [TrackMemory]; it takes exactly
    eight reports from the runtime, and the report printed for the j-th demo
    is computed from the (2j)-th and (2j+1)-th of them only. Around the four
    reports it prints the banner, the title, the banner, and at the end the
    banner again. The body of [DemonstrateMemoryTracking] is exactly: the
    three opening lines, then four times a function literal and a call of
    [TrackMemory], then the closing banner; and the body of the j-th
    [TrackMemory] is exactly: collection, report 2j, the call of the j-th
    demo, report 2j+1, and the five lines computed from these two reports.
    The store grows by 22 objects; no global is changed. *)
Theorem DemonstrateMemoryTracking_reports (w : World) (k : nat) :
  let st := rt_stats w in
  let r := rt_reads w in
  exists w' : World,
    DemonstrateMemoryTracking (101 + k) w = Ok (tt, w') /\
    body_events "DemonstrateMemoryTracking" (new_events w w') =
      [ EvPrintln [PStr (nl +:+ banner)];
        EvPrintln [PStr "MEMORY ALLOCATION TRACKING"];
        EvPrintln [PStr banner];
        EvClosure []; EvCall "TrackMemory"; EvRet "TrackMemory";
        EvClosure []; EvCall "TrackMemory"; EvRet "TrackMemory";
        EvClosure []; EvCall "TrackMemory"; EvRet "TrackMemory";
        EvClosure []; EvCall "TrackMemory"; EvRet "TrackMemory";
        EvPrintln [PStr (nl +:+ banner)] ] /\
    body_events "TrackMemory" (new_events w w') =
      track_body "Stack Only (should be minimal)" "stackOnlyAllocation"
                 (st r) (st (1 + r)%nat) ++
      track_body "Small Structs on Stack" "stackStructAllocation"
                 (st (2 + r)%nat) (st (3 + r)%nat) ++
      track_body "Heap Allocation (createLargeObject x10)"
                 "heapAllocationViaPointer" (st (4 + r)%nat) (st (5 + r)%nat) ++
      track_body "Large Allocation (1MB slice)" "largeAllocation"
                 (st (6 + r)%nat) (st (7 + r)%nat) /\
    printf_args (new_events w w') =
      delta_args "Stack Only (should be minimal)" (st r) (st (1 + r)%nat) ++
      delta_args "Small Structs on Stack" (st (2 + r)%nat) (st (3 + r)%nat) ++
      delta_args "Heap Allocation (createLargeObject x10)"
                 (st (4 + r)%nat) (st (5 + r)%nat) ++
      delta_args "Large Allocation (1MB slice)" (st (6 + r)%nat) (st (7 + r)%nat) /\
    println_args (new_events w w') =
      [ [PStr (nl +:+ banner)]; [PStr "MEMORY ALLOCATION TRACKING"];
        [PStr banner]; [PStr (nl +:+ banner)] ] /\
    calls (new_events w w') =
      [ "DemonstrateMemoryTracking";
        "TrackMemory"; "stackOnlyAllocation";
        "TrackMemory"; "stackStructAllocation";
        "TrackMemory"; "heapAllocationViaPointer" ] ++
      replicate 10 "createLargeObject" ++
      [ "TrackMemory"; "largeAllocation" ] /\
    rt_reads w' = (8 + r)%nat /\
    count is_read (new_events w w') = 8%nat /\
    length (heap w') = (22 + length (heap w))%nat /\
    g_interface w' = g_interface w /\ g_ptr w' = g_ptr w.
Proof.
  intros st0 r. subst st0 r. shape w. eexists. split; [exec|].
  rewrite new_events_app. cbn [heap g_interface g_ptr rt_reads rt_stats].
  split; [reflexivity|]. split; [reflexivity|].
  split; [reflexivity|]. split; [reflexivity|]. split; [reflexivity|].
  split; [reflexivity|]. split; [reflexivity|].
  split; [rewrite length_app; cbn [length]; lia|].
  split; reflexivity.
Qed.

(** ** What escapes stays reachable *)

Lemma lookup_later (h l : list Obj) (o : Obj) :
  ((h ++ [o]) ++ l) !! length h = Some o.
Proof. rewrite <- app_assoc. by apply list_lookup_middle. Qed.

(** X6: the pointer [escapesViaReturn] returns is never dangling. In any
    world the function adds one variable holding 42 to the store and returns
    its address; dereferencing that pointer yields 42 right after the
    return, and still does after anything else has been allocated. *)
Theorem escapesViaReturn_pointer_stays_valid (w : World)
    (l : list Obj) (es : list Event) :
  exists (p : Val) (w' : World),
    escapesViaReturn w = Ok (p, w') /\
    p = VPtr (Some (length (heap w))) /\
    heap w' = heap w ++ [OVar (VInt 42)] /\
    int_through p w' = Ok (42, w') /\
    int_through p (later l es w') = Ok (42, later l es w').
Proof.
  shape w. eexists _, _. split; [exec|].
  split; [reflexivity|]. split; [reflexivity|].
  split; [run|].
  unfold int_through, later, deref, load_var, load, as_int, bind, ret.
  cbn [heap g_interface g_ptr trace rt_stats rt_reads].
  rewrite lookup_later. reflexivity.
Qed.

(** X7: the closure [escapesViaClosure] returns keeps its variable alive.
    The function adds one variable holding 42 to the store; the closure,
    called right after the return or after anything else has been
    allocated, returns 42 and changes nothing. *)
Theorem escapesViaClosure_closure_returns_42 (w : World)
    (l : list Obj) (es : list Event) :
  exists (fn : M Z) (w' : World),
    escapesViaClosure w = Ok (fn, w') /\
    heap w' = heap w ++ [OVar (VInt 42)] /\
    List.filter is_closure (new_events w w') = [EvClosure [length (heap w)]] /\
    fn w' = Ok (42, w') /\
    fn (later l es w') = Ok (42, later l es w').
Proof.
  shape w. eexists _, _. split; [exec|].
  rewrite new_events_app.
  split; [reflexivity|]. split; [reflexivity|].
  split; [run|].
  unfold later, load_var, load, as_int, bind, ret.
  cbn [heap g_interface g_ptr trace rt_stats rt_reads].
  rewrite lookup_later. reflexivity.
Qed.

(** X8: [escapesViaGlobal], in any world, makes [globalPtr] point to a new
    variable holding 42, whatever it pointed to before, and leaves
    [globalInterface] and the rest of the store alone. Called twice, it
    allocates twice: [globalPtr] ends on the second variable and the first
    stays in the store with nothing pointing to it. *)
Theorem escapesViaGlobal_repoints_global (w : World) :
  let n := length (heap w) in
  exists w1 w2 : World,
    escapesViaGlobal w = Ok (tt, w1) /\
    heap w1 = heap w ++ [OVar (VInt 42)] /\
    g_ptr w1 = VPtr (Some n) /\
    g_interface w1 = g_interface w /\
    int_through (g_ptr w1) w1 = Ok (42, w1) /\
    escapesViaGlobal w1 = Ok (tt, w2) /\
    heap w2 = heap w ++ [OVar (VInt 42); OVar (VInt 42)] /\
    g_ptr w2 = VPtr (Some (S n)) /\
    g_interface w2 = g_interface w.
Proof.
  intros n. subst n. shape w. eexists _, _. split; [exec|].
  cbn [heap g_interface g_ptr].
  split; [reflexivity|]. split; [reflexivity|]. split; [reflexivity|].
  split; [run|].
  split; [exec|].
  cbn [heap g_interface g_ptr]. split_all; reflexivity.
Qed.

(** X9: [escapesViaInterface], in any world, stores in [globalInterface] an
    interface value of dynamic type int whose data is a new variable
    holding 42, whatever the global held before; [globalPtr] and the rest of
    the store are left alone. *)
Theorem escapesViaInterface_boxes_value (w : World) :
  let n := length (heap w) in
  exists w' : World,
    escapesViaInterface w = Ok (tt, w') /\
    heap w' = heap w ++ [OVar (VInt 42)] /\
    g_interface w' = VIface (Some ("int", n)) /\
    g_ptr w' = g_ptr w /\
    load_var n w' = Ok (VInt 42, w').
Proof.
  intros n. subst n. shape w. eexists. split; [exec|].
  cbn [heap g_interface g_ptr].
  split; [reflexivity|]. split; [reflexivity|]. split; [reflexivity|].
  run.
Qed.

(** ** Pointer sharing *)

(** X10: in [pointerSharingExample], called in any world, the four pointer
    variables are four different variables holding one and the same
    address: each of the four lines prints that address, then the address of
    its own variable, then the pointee Bob, 25. The store grows by one
    [User] and the four variables. After [ptr1.Age = 26] the [User] read
    through any of the four variables is Bob, 26, and that is what the last
    line prints. *)
Theorem pointerSharingExample_aliases (w : World) :
  let n := length (heap w) in
  let bob := Some n in
  exists w' : World,
    pointerSharingExample w = Ok (tt, w') /\
    heap w' = heap w ++
      [ OUser (mkUser "Bob" 26);
        OVar (VPtr bob); OVar (VPtr bob); OVar (VPtr bob); OVar (VPtr bob) ] /\
    printf_args (new_events w w') =
      [ [PPtr bob; PPtr (Some (1 + n)%nat); PUser (mkUser "Bob" 25)];
        [PPtr bob; PPtr (Some (2 + n)%nat); PUser (mkUser "Bob" 25)];
        [PPtr bob; PPtr (Some (3 + n)%nat); PUser (mkUser "Bob" 25)];
        [PPtr bob; PPtr (Some (4 + n)%nat); PUser (mkUser "Bob" 25)];
        [PUser (mkUser "Bob" 26)] ] /\
    Forall (fun var => user_through var w' = Ok (mkUser "Bob" 26, w'))
           [ (1 + n)%nat; (2 + n)%nat; (3 + n)%nat; (4 + n)%nat ] /\
    count is_store (new_events w w') = 1%nat /\
    g_interface w' = g_interface w /\ g_ptr w' = g_ptr w.
Proof.
  intros n bob. subst bob n. shape w. eexists. split; [exec|].
  rewrite new_events_app. cbn [heap g_interface g_ptr].
  split; [reflexivity|]. split; [reflexivity|].
  split; [repeat constructor; run|].
  split_all; reflexivity.
Qed.

(** ** Slice sharing, as printed *)

(** X11: [sliceSharingExample], called in any world, allocates exactly one
    backing array: taking [original[1:4]] and [original[2:]] copies
    nothing. It prints the three slices as [1 2 3 4 5] (len 5, cap 5),
    [2 3 4] (len 3, cap 4) and [3 4 5] (len 3, cap 3), and after the
    assignment as [1 2 99 4 5], [2 99 4] and [99 4 5]. *)
Theorem sliceSharingExample_prints (w : World) :
  exists (backing : Arr) (w' : World),
    sliceSharingExample w = Ok (tt, w') /\
    heap w' = heap w ++ [OArr backing] /\
    count is_alloc (new_events w w') = 1%nat /\
    printf_args (new_events w w') =
      [ [PInts [VInt 1; VInt 2; VInt 3; VInt 4; VInt 5]; PInt 5; PInt 5];
        [PInts [VInt 2; VInt 3; VInt 4]; PInt 3; PInt 4];
        [PInts [VInt 3; VInt 4; VInt 5]; PInt 3; PInt 3];
        [PInts [VInt 1; VInt 2; VInt 99; VInt 4; VInt 5]];
        [PInts [VInt 2; VInt 99; VInt 4]];
        [PInts [VInt 99; VInt 4; VInt 5]] ] /\
    println_args (new_events w w') =
      [ [PStr (nl +:+ "  After modifying slice1[1] = 99:")];
        [PStr "  All slices share the same backing array on heap"] ] /\
    g_interface w' = g_interface w /\ g_ptr w' = g_ptr w.
Proof.
  shape w. eexists _, _. split; [run|].
  rewrite new_events_app. cbn [heap g_interface g_ptr].
  split; [reflexivity|]. split_all; reflexivity.
Qed.

(** ** Users on the heap *)

(** X12: [createUser], in any world, returns a non-nil pointer to a new
    [User] Alice, 30; called twice it returns two different pointers to two
    separate [User]s. [heapExample] prints exactly the [User] it got from
    [createUser], and adds nothing else to the store. *)
Theorem createUser_fresh_each_time (w : World) :
  let n := length (heap w) in
  exists w1 w2 w3 : World,
    createUser w = Ok (VPtr (Some n), w1) /\
    createUser w1 = Ok (VPtr (Some (S n)), w2) /\
    heap w2 = heap w ++ [OUser (mkUser "Alice" 30); OUser (mkUser "Alice" 30)] /\
    heapExample w = Ok (tt, w3) /\
    heap w3 = heap w ++ [OUser (mkUser "Alice" 30)] /\
    printf_args (new_events w w3) = [[PUserRef n (mkUser "Alice" 30)]].
Proof.
  intros n. subst n. shape w. eexists _, _, _.
  split; [exec|]. split; [exec|]. split; [reflexivity|].
  split; [exec|]. rewrite new_events_app. split; reflexivity.
Qed.

(** ** [main] from any world *)

(** X13: [main] does not depend on the world it starts in. From any store,
    any values of the two globals and any runtime, with room for 101 loop
    tests or more, it returns; it calls the same six demos in the same
    order with the same three headers between them, makes 46 print calls
    that write 55 lines of text, takes eight reports from the runtime, and
    adds 35 objects to the store without changing any object that was there
    before. Whatever the two globals held, at the end [globalInterface]
    holds the one variable allocated by [escapesViaInterface] and
    [globalPtr] points to the one variable allocated by
    [escapesViaGlobal]. *)
Theorem main_from_any_world (w : World) (k : nat) :
  let n := length (heap w) in
  exists (l : list Obj) (w' : World),
    main (101 + k) w = Ok (tt, w') /\
    heap w' = heap w ++ l /\ length l = 35%nat /\
    calls (body_events "main" (new_events w w')) =
      [ "stackExample"; "heapExample"; "pointerSharingExample";
        "sliceSharingExample"; "DemonstrateEscapeAnalysis";
        "DemonstrateMemoryTracking" ] /\
    println_args (body_events "main" (new_events w w')) =
      [ [PStr "=== Go Memory Model Playground ==="]; [];
        [PStr "1. Stack vs Heap Allocation"];
        [PStr (nl +:+ "2. Pointer Sharing (Multiple References)")];
        [PStr (nl +:+ "3. Slice Sharing (Shared Backing Array)")] ] /\
    count is_output (new_events w w') = 46%nat /\
    list_sum (map lines_printed (new_events w w')) = 55%nat /\
    g_interface w' = VIface (Some ("int", (8 + n)%nat)) /\
    g_ptr w' = VPtr (Some (11 + n)%nat) /\
    List.filter is_alloc (events_within "escapesViaInterface" (new_events w w'))
      = [EvAlloc (8 + n)%nat (OVar (VInt 42))] /\
    List.filter is_alloc (events_within "escapesViaGlobal" (new_events w w'))
      = [EvAlloc (11 + n)%nat (OVar (VInt 42))] /\
    rt_reads w' = (8 + rt_reads w)%nat.
Proof.
  intros n. subst n. shape w. eexists _, _. split; [exec|].
  rewrite new_events_app. cbn [heap rt_reads g_interface g_ptr].
  split; [reflexivity|]. split_all; reflexivity.
Qed.
